(** * YOLOv8-Trainer: the notebook [object-detection.ipynb]

    The notebook is a straight-line script.  Its own content is the
    configuration record [data_yaml], the two hyperparameter mappings and
    the order and arguments of the calls it makes to its collaborators
    (the [roboflow] client, [yaml.dump] of PyYAML, the [ultralytics]
    model object and two shell commands).

    The development has these parts:
    - [Py]: the Python values the notebook builds;
    - [Yaml]: the node graph that [yaml.dump] with [SafeDumper] writes
      for such values and the values [SafeLoader] builds from it;
    - [Roboflow]: the objects of the dataset client the notebook holds;
    - [Ultralytics]: where a training call saves its weights and how the
      [yolo] command line reads its arguments;
    - [Notebook]: the cells, in order, as functions, and the run;
    - [Spec]: the properties of the specification that need a definition
      of their own;
    - [Record]: notions for any record and any document;
    - the proofs. *)

From Stdlib Require Import ZArith List Ascii String.
From Stdlib Require Import DecimalString DecimalFacts DecimalPos DecimalZ.
From Stdlib Require Import Sorting.Sorted.
From stdpp Require Import base option list strings gmap.

Set Warnings "-register-all".

Local Open Scope string_scope.
Local Open Scope Z_scope.

(** ** Python values *)

Module Py.

(** The values the notebook handles.  A [dict] keeps its insertion
    order; both dicts of the notebook have [str] keys, so keys are
    strings.  A float is carried as Python's [repr] of it (the shortest
    literal that reads back as the same float): the literal [1e-4] of the
    notebook is [PyFloat "0.0001"].  [PyObject] stands for an instance of
    a class that the safe dumper has no representer for (a file object, a
    dumper class, a model).  Tuples, sets, bytes and dates, which the
    safe dumper can represent as well, do not occur in the notebook and
    are not among these values. *)
Inductive pyobj : Type :=
| PyNone
| PyBool (b : bool)
| PyInt (z : Z)
| PyFloat (repr : string)
| PyStr (s : string)
| PyList (items : list pyobj)
| PyDict (items : list (string * pyobj))
| PyObject (cls : string).

Definition dict : Type := list (string * pyobj).

(** [d.keys()], [d.values()], in insertion order. *)
Definition dict_keys {A : Type} (d : list (string * A)) : list string := map fst d.
Definition dict_values {A : Type} (d : list (string * A)) : list A := map snd d.

(** [d.get(k)] *)
Fixpoint dict_get {A : Type} (k : string) (d : list (string * A)) : option A :=
  match d with
  | [] => None
  | (k', v) :: d' => if String.eqb k k' then Some v else dict_get k d'
  end.

(** [d[k] = v]: an existing key keeps its place and takes the new value,
    a new key goes to the end. *)
Fixpoint dict_set {A : Type} (k : string) (v : A) (d : list (string * A))
  : list (string * A) :=
  match d with
  | [] => [(k, v)]
  | (k', v') :: d' =>
      if String.eqb k k' then (k, v) :: d' else (k', v') :: dict_set k v d'
  end.

(** The dict as a finite map, forgetting the insertion order. *)
Definition dict_map (d : dict) : gmap string pyobj := list_to_map d.

(** [len(l)] *)
Definition len {A : Type} (l : list A) : Z := Z.of_nat (length l).

(** [str(z)] for an [int]: decimal digits, ["-"] in front when negative.
    The interpreter refuses to print an int of more than 4300 digits;
    the text here is the one it prints up to that length, which a count
    of list items never exceeds. *)
Definition str_int (z : Z) : string := NilZero.string_of_int (Z.to_int z).

(** [sorted(items)] on the [(key, value)] pairs of a dict.  Tuples compare
    by their first component first, and the keys of a dict are pairwise
    distinct, so the values decide nothing; [str] compares by code point.
    Python's sort is stable, and so is this insertion sort. *)
Fixpoint sorted_insert {A : Type} (x : string * A) (l : list (string * A))
  : list (string * A) :=
  match l with
  | [] => [x]
  | y :: l' =>
      if String.leb (fst x) (fst y) then x :: y :: l'
      else y :: sorted_insert x l'
  end.

Definition sorted {A : Type} (l : list (string * A)) : list (string * A) :=
  foldr sorted_insert [] l.

(** [type(o)] *)
Inductive pytype : Type :=
| NoneType | bool_t | int_t | float_t | str_t | list_t | dict_t
| class_t (cls : string).

Definition type_of (o : pyobj) : pytype :=
  match o with
  | PyNone => NoneType
  | PyBool _ => bool_t
  | PyInt _ => int_t
  | PyFloat _ => float_t
  | PyStr _ => str_t
  | PyList _ => list_t
  | PyDict _ => dict_t
  | PyObject cls => class_t cls
  end.

(** The scalar types of Python: [int], [float], [bool], [str]. *)
Definition is_scalar (o : pyobj) : bool :=
  match o with
  | PyBool _ | PyInt _ | PyFloat _ | PyStr _ => true
  | PyNone | PyList _ | PyDict _ | PyObject _ => false
  end.

End Py.

(** ** Exceptions *)

(** A computation of the model returns a value or raises.  [NotModelled]
    marks the branches of the YAML loader that the dumper's output for
    the notebook's values never reaches and that are left out. *)
Inductive error : Type :=
| RepresenterError
| ConstructorError
| IndexError
| KeyError
| NotModelled.

Inductive result (A : Type) : Type :=
| Ok (a : A)
| Raise (e : error).
Arguments Ok {A} a.
Arguments Raise {A} e.

Definition bind {A B : Type} (r : result A) (f : A -> result B) : result B :=
  match r with
  | Ok a => f a
  | Raise e => Raise e
  end.

Notation "'let*' x ':=' r 'in' k" := (bind r (fun x => k))
  (at level 10, x name, r at level 100, k at level 200).

(** Run the computations of a list from left to right, up to the first
    one that raises. *)
Fixpoint sequence {A : Type} (l : list (result A)) : result (list A) :=
  match l with
  | [] => Ok []
  | r :: l' => let* a := r in let* rest := sequence l' in Ok (a :: rest)
  end.

Definition is_ok {A : Type} (r : result A) : bool :=
  match r with Ok _ => true | Raise _ => false end.

(** ** PyYAML: [yaml.dump(data, stream, yaml.SafeDumper)] and [SafeLoader]

    [yaml.dump] represents the value as a node graph ([SafeRepresenter]),
    and the emitter writes that graph to the stream; the loader parses the
    stream into a node graph again and constructs a value from it
    ([SafeConstructor]).  The model is at the level of the node graph: a
    document is the node graph the file holds.  The emitter chooses the
    style of every scalar so that the reader resolves it to the tag of its
    node, which is why the graph is what the file carries.  No list or
    dict occurs twice in the records of the notebook, so the graph is a
    tree and has no alias nodes. *)

Module Yaml.
Import Py.

Inductive tag : Type :=
| tag_null | tag_bool | tag_int | tag_float | tag_str | tag_seq | tag_map
| tag_other (name : string).

Inductive node : Type :=
| ScalarNode (t : tag) (value : string)
| SequenceNode (t : tag) (value : list node)
| MappingNode (t : tag) (value : list (node * node)).

(** *** String helpers of the representer and the constructor *)

Definition lower_ascii (c : ascii) : ascii :=
  let n := N_of_ascii c in
  if ((65 <=? n) && (n <=? 90))%N then ascii_of_N (n + 32) else c.

(** [s.lower()] on ASCII text *)
Fixpoint lower (s : string) : string :=
  match s with
  | EmptyString => EmptyString
  | String c s' => String (lower_ascii c) (lower s')
  end.

(** [c in s] *)
Fixpoint contains (c : ascii) (s : string) : bool :=
  match s with
  | EmptyString => false
  | String c' s' => Ascii.eqb c c' || contains c s'
  end.

(** [s.replace(c, by, 1)] *)
Fixpoint replace_first (c : ascii) (by_ : string) (s : string) : string :=
  match s with
  | EmptyString => EmptyString
  | String c' s' =>
      if Ascii.eqb c c' then by_ +:+ s' else String c' (replace_first c by_ s')
  end.

(** [s.replace(c, '')] *)
Fixpoint remove (c : ascii) (s : string) : string :=
  match s with
  | EmptyString => EmptyString
  | String c' s' =>
      if Ascii.eqb c c' then remove c s' else String c' (remove c s')
  end.

(** *** SafeRepresenter *)

(** [represent_float], from the [repr] of the float. *)
Definition represent_float (repr : string) : string :=
  if String.eqb repr "nan" then ".nan"
  else if String.eqb repr "inf" then ".inf"
  else if String.eqb repr "-inf" then "-.inf"
  else
    let value := lower repr in
    if negb (contains "." value) && contains "e" value
    then replace_first "e" ".0e" value
    else value.

(** [represent_data]: the dispatch on the type of the value.  A [dict] is
    [represent_dict], which is [represent_mapping]: it sorts the items
    when [sort_keys] is set and then represents key and value of each
    item in that order.  Here the values are represented where they
    stand, the results are put in the order of the sorted items, and
    [sequence] runs them in that order: the first value that cannot be
    represented, in the order of the sorted items, raises.  Any type
    without a representer of its own goes to [represent_undefined], which
    raises; that is the case of [PyObject].  The representers of tuple,
    set, bytes and dates are left out with those values. *)
Fixpoint represent_data (sort_keys : bool) (data : pyobj) : result node :=
  match data with
  | PyNone => Ok (ScalarNode tag_null "null")
  | PyBool b => Ok (ScalarNode tag_bool (if b then "true" else "false"))
  | PyInt z => Ok (ScalarNode tag_int (str_int z))
  | PyFloat r => Ok (ScalarNode tag_float (represent_float r))
  | PyStr s => Ok (ScalarNode tag_str s)
  | PyList items =>
      let* value := sequence (map (represent_data sort_keys) items) in
      Ok (SequenceNode tag_seq value)
  | PyDict items =>
      let represented :=
        map (fun kv => (fst kv, represent_data sort_keys (snd kv))) items in
      let mapping := if sort_keys then sorted represented else represented in
      let* value :=
        sequence (map (fun kr => let* v := snd kr in
                                 Ok (ScalarNode tag_str (fst kr), v))
                      mapping) in
      Ok (MappingNode tag_map value)
  | PyObject _ => Raise RepresenterError
  end.

(** [yaml.dump(data, stream, Dumper, sort_keys=True)]: [sort_keys] is a
    keyword argument whose default is [True].  The result is the document
    written to the stream. *)
Definition dump (data : pyobj) (sort_keys : bool) : result node :=
  represent_data sort_keys data.

(** *** SafeConstructor *)

(** [construct_yaml_bool]: the table [bool_values] on the lowered text. *)
Definition construct_yaml_bool (text : string) : result bool :=
  let value := lower text in
  if String.eqb value "yes" || String.eqb value "true" || String.eqb value "on"
  then Ok true
  else if String.eqb value "no" || String.eqb value "false"
          || String.eqb value "off"
  then Ok false
  else Raise KeyError.

(** [construct_yaml_int]: underscores are dropped, a sign is read, ["0"]
    is zero, and text without a base prefix, a leading zero or a colon is
    read in base ten.  The other bases ([0b], [0x], leading [0], base
    sixty) and text that is not a run of decimal digits are left out:
    [str] of an int never has those forms. *)
Definition construct_yaml_int (text : string) : result Z :=
  match remove "_" text with
  | EmptyString => Raise IndexError
  | String c rest =>
      let sign := if Ascii.eqb c "-" then -1 else 1 in
      let value :=
        if Ascii.eqb c "-" || Ascii.eqb c "+" then rest else String c rest in
      if String.eqb value "0" then Ok 0
      else if String.prefix "0b" value || String.prefix "0x" value
      then Raise NotModelled
      else
        match value with
        | EmptyString => Raise IndexError
        | String c0 _ =>
            if Ascii.eqb c0 "0" then Raise NotModelled
            else if contains ":" value then Raise NotModelled
            else
              match NilEmpty.uint_of_string value with
              | Some d => Ok (sign * Z.of_uint d)
              | None => Raise NotModelled
              end
        end
  end.

(** [construct_object]: the dispatch on the tag of the node.  A
    constructor given a node of another kind than its tag raises.
    [construct_mapping] builds the dict by assignment in the order of the
    node's items; a key that is a list or a dict is unhashable and raises.
    Floats, the other tags and keys that are not [str] are left out. *)
Fixpoint construct_object (n : node) : result pyobj :=
  match n with
  | ScalarNode tag_null _ => Ok PyNone
  | ScalarNode tag_bool text =>
      let* b := construct_yaml_bool text in Ok (PyBool b)
  | ScalarNode tag_int text =>
      let* z := construct_yaml_int text in Ok (PyInt z)
  | ScalarNode tag_str text => Ok (PyStr text)
  | SequenceNode tag_seq value =>
      let* items := sequence (map construct_object value) in
      Ok (PyList items)
  | MappingNode tag_map value =>
      let* mapping :=
        (fix construct_mapping (value : list (node * node)) (mapping : dict)
           : result dict :=
           match value with
           | [] => Ok mapping
           | (key_node, value_node) :: value' =>
               let* key := construct_object key_node in
               match key with
               | PyStr k =>
                   let* v := construct_object value_node in
                   construct_mapping value' (dict_set k v mapping)
               | PyList _ | PyDict _ => Raise ConstructorError
               | _ => Raise NotModelled
               end
           end) value [] in
      Ok (PyDict mapping)
  | ScalarNode tag_float _ => Raise NotModelled
  | ScalarNode (tag_other _) _ | SequenceNode (tag_other _) _
  | MappingNode (tag_other _) _ => Raise NotModelled
  | _ => Raise ConstructorError
  end.

(** [yaml.safe_load] of a document. *)
Definition load (document : node) : result pyobj := construct_object document.

(** The value node under a [str] key of a mapping node. *)
Fixpoint mapping_get (k : string) (value : list (node * node)) : option node :=
  match value with
  | [] => None
  | (ScalarNode tag_str k', v) :: value' =>
      if String.eqb k k' then Some v else mapping_get k value'
  | _ :: value' => mapping_get k value'
  end.

End Yaml.

(** ** The roboflow client *)

Module Roboflow.

(** [project.classes] is a dict from class name to annotation count. *)
Record Project : Type :=
  { workspace : string; project_id : string; classes : list (string * Z) }.

Record Version : Type := { project : Project; number : Z }.

(** What [version.download] returns: the name of the project, the number
    of the version, the format asked for and the directory that holds the
    files.  It has no class list; the files have one of their own. *)
Record Dataset : Type :=
  { dataset_name : string; dataset_version : Z; model_format : string;
    location : string }.

(** The hosting service: the class table of each project of each
    workspace. *)
Definition service : Type := string -> string -> list (string * Z).

(** [rf.workspace(w).project(p)] *)
Definition get_project (rf : service) (w p : string) : Project :=
  {| workspace := w; project_id := p; classes := rf w p |}.

(** [project.version(n)] *)
Definition version (p : Project) (n : Z) : Version :=
  {| project := p; number := n |}.

(** [version.download(model_format, location=location)] *)
Definition download (v : Version) (format loc : string) : Dataset :=
  {| dataset_name := project_id (project v); dataset_version := number v;
     model_format := format; location := loc |}.

(** The archives of the hosting service: a version of a project is a
    snapshot of its own, and the files of its archive list the class
    names of that snapshot.  The class table of the project and the
    class list of one of its versions are two pieces of data of the
    service. *)
Definition exports : Type := string -> string -> Z -> list string.

(** The class names listed in the files that downloading the version
    puts under the location. *)
Definition downloaded_classes (ex : exports) (v : Version) : list string :=
  ex (workspace (project v)) (project_id (project v)) (number v).

End Roboflow.

(** ** The ultralytics side: where training saves, what the CLI reads *)

Module Ultralytics.
Import Py.

(** [os.path.join(a, b)] for a relative [b]. *)
Definition join (a b : string) : string := a +:+ "/" +:+ b.

(** The run directory of a training call is [project/name]; when that
    directory exists already the library appends a number to the name,
    here [increment] (empty for a first run). *)
Definition save_dir (kwargs : dict) (increment : string) : option string :=
  match dict_get "project" kwargs, dict_get "name" kwargs with
  | Some (PyStr p), Some (PyStr n) => Some (join p (n +:+ increment))
  | _, _ => None
  end.

(** Training leaves its best weights in [weights/best.pt] of the run
    directory. *)
Definition best_weights (kwargs : dict) (increment : string) : option string :=
  match save_dir kwargs increment with
  | Some d => Some (join (join d "weights") "best.pt")
  | None => None
  end.

(** [s] without the prefix [p], when it has that prefix. *)
Fixpoint strip_prefix (p s : string) : option string :=
  match p, s with
  | EmptyString, _ => Some s
  | String a p', String b s' =>
      if Ascii.eqb a b then strip_prefix p' s' else None
  | String _ _, EmptyString => None
  end.

(** The [yolo] command line takes its settings as [key=value] words. *)
Fixpoint cli_arg (key : string) (argv : list string) : option string :=
  match argv with
  | [] => None
  | w :: argv' =>
      match strip_prefix (key +:+ "=") w with
      | Some v => Some v
      | None => cli_arg key argv'
      end
  end.

(** The first component of a relative path. *)
Fixpoint first_component (path : string) : string :=
  match path with
  | EmptyString => EmptyString
  | String c path' =>
      if Ascii.eqb c "/" then EmptyString else String c (first_component path')
  end.

End Ultralytics.

(** ** The notebook *)

Module Notebook.
Import Py.

(** What the notebook does to the outside: a shell line ([! ...]) or a
    call into one of the three libraries it imports. *)
Inductive library : Type := roboflow | pyyaml | ultralytics.

Inductive event : Type :=
| Shell (argv : list string)
| Call (lib : library) (fn : string) (args : list pyobj) (kwargs : dict).

(** Code cell 1: [! pip install ...] *)
Definition cell_install : list event :=
  [Shell ["pip"; "install"; "--upgrade"; "--no-cache-dir"; "--quiet";
          "ultralytics"; "roboflow"; "pyyaml"; "tensorboard"]].

(** Code cell 2: the dataset. *)
Definition project (rf : Roboflow.service) : Roboflow.Project :=
  Roboflow.get_project rf "large-benchmark-datasets" "logistics-sz9jr".

Definition version (project : Roboflow.Project) : Roboflow.Version :=
  Roboflow.version project 2.

Definition dataset (version : Roboflow.Version) : Roboflow.Dataset :=
  Roboflow.download version "yolov8" "datasets".

Definition cell_download : list event :=
  [Call roboflow "Roboflow" [] [("api_key", PyStr "API-KEY")];
   Call roboflow "workspace" [PyStr "large-benchmark-datasets"] [];
   Call roboflow "project" [PyStr "logistics-sz9jr"] [];
   Call roboflow "version" [PyInt 2] [];
   Call roboflow "download" [PyStr "yolov8"] [("location", PyStr "datasets")]].

(** Code cell 3: the configuration record. *)
Definition labels (project : Roboflow.Project) : list string :=
  dict_keys (Roboflow.classes project).

Definition nc (labels : list string) : Z := len labels.

Definition data_yaml (labels : list string) (nc : Z) : dict :=
  [("path", PyStr ".");
   ("train", PyStr "train");
   ("val", PyStr "valid");
   ("test", PyStr "test");
   ("nc", PyInt nc);
   ("names", PyList (map PyStr labels))].

(** Code cell 4: [yaml.dump(data_yaml, fp, yaml.SafeDumper)] into
    ["data.yaml"]; no [sort_keys] is passed, so it has its default. *)
Definition cell_dump (data_yaml : dict)
  : result (list event * (string * Yaml.node)) :=
  let* document := Yaml.dump (PyDict data_yaml) true in
  Ok ([Call pyyaml "dump"
         [PyDict data_yaml; PyObject "TextIOWrapper"; PyObject "SafeDumper"]
         []],
      ("data.yaml", document)).

(** Code cell 5: the model. *)
Definition cell_model : list event :=
  [Call ultralytics "YOLO" [PyStr "yolov8s.pt"] [("task", PyStr "detect")]].

(** Code cells 6 and 7: the hyperparameters. *)
Definition simple_hyperparameters : dict :=
  [("device", PyInt 0);
   ("data", PyStr "data.yaml");
   ("epochs", PyInt 20);
   ("batch", PyInt 16);
   ("seed", PyInt 1337)].

Definition hyperparameters : dict :=
  [("device", PyInt 0);
   ("data", PyStr "data.yaml");
   ("epochs", PyInt 20);
   ("batch", PyInt 16);
   ("optimizer", PyStr "AdamW");
   ("cos_lr", PyBool true);
   ("lr0", PyFloat "0.0001");
   ("warmup_epochs", PyInt 5);
   ("project", PyStr "object-detection");
   ("name", PyStr "training-1");
   ("verbose", PyBool true);
   ("seed", PyInt 1337)].

(** Code cell 8: [model.train] with the dict [hyperparameters] unpacked
    into its keyword arguments. *)
Definition cell_train (hyperparameters : dict) : list event :=
  [Call ultralytics "train" [] hyperparameters].

(** Code cell 9: [model.val()] *)
Definition cell_val : list event := [Call ultralytics "val" [] []].

(** Code cell 10: [! yolo export model=... format=tflite] *)
Definition export_argv : list string :=
  ["yolo"; "export"; "model=object-detector/test-run-3/weights/best.pt";
   "format=tflite"].

Definition cell_export : list event := [Shell export_argv].

(** The state a run leaves: what it did to the outside, in order, and the
    files it wrote. *)
Record run : Type :=
  { trace : list event; files : list (string * Yaml.node) }.

(** All code cells, top to bottom; [hyperparameters] is the variable that
    the training cell reads. *)
Definition run_cells (rf : Roboflow.service) (hyperparameters : dict)
  : result run :=
  let project := project rf in
  let version := version project in
  let dataset := dataset version in
  let labels := labels project in
  let nc := nc labels in
  let data_yaml := data_yaml labels nc in
  let* dumped := cell_dump data_yaml in
  Ok {| trace := cell_install ++ cell_download ++ fst dumped ++ cell_model
                 ++ cell_train hyperparameters ++ cell_val ++ cell_export;
        files := [snd dumped] |}.

Definition notebook (rf : Roboflow.service) : result run :=
  run_cells rf hyperparameters.

(** The calls of a trace into the libraries, and its shell lines. *)
Definition is_call (e : event) : bool :=
  match e with Call _ _ _ _ => true | Shell _ => false end.

Definition library_calls (t : list event) : list string :=
  omap (fun e => match e with Call _ fn _ _ => Some fn | Shell _ => None end) t.

Definition shell_lines (t : list event) : list (list string) :=
  omap (fun e => match e with Shell argv => Some argv | Call _ _ _ _ => None end) t.

(** The keyword arguments of the calls of [fn] in a trace. *)
Definition calls_of (fn : string) (t : list event) : list (list pyobj * dict) :=
  omap (fun e => match e with
                 | Call _ fn' args kwargs =>
                     if String.eqb fn fn' then Some (args, kwargs) else None
                 | Shell _ => None
                 end) t.

(** The shell lines of a trace that run the sub-command [cmd] of [yolo]. *)
Definition yolo_lines (cmd : string) (t : list event) : list (list string) :=
  filter (fun argv => argv !! 0%nat = Some "yolo" /\ argv !! 1%nat = Some cmd)
         (shell_lines t).

End Notebook.

(** ** The properties of the specification that need a definition *)

Module Spec.
Import Py Notebook.

(** A value of the configuration record: a string, an integer or a list
    of strings. *)
Definition plain_value (o : pyobj) : bool :=
  match o with
  | PyStr _ | PyInt _ => true
  | PyList items =>
      forallb (fun i => match i with PyStr _ => true | _ => false end) items
  | _ => false
  end.

(** The round trip as the specification words it: dumping the mapping and
    loading the file gives a mapping with the same keys in the same order
    and, under each key, a value of the same type. *)
Definition roundtrip_keeps_order (cfg : dict) : Prop :=
  exists document loaded,
    Yaml.dump (PyDict cfg) true = Ok document /\
    Yaml.load document = Ok (PyDict loaded) /\
    dict_keys loaded = dict_keys cfg /\
    forall k, type_of <$> dict_get k loaded = type_of <$> dict_get k cfg.

(** The source of the class names as the specification words it: the
    names in the file of a run are the class names of the dataset that
    the run downloaded, that is, those listed in the downloaded files. *)
Definition names_of_downloaded_dataset
    (rf : Roboflow.service) (ex : Roboflow.exports) : Prop :=
  exists r document loaded,
    notebook rf = Ok r
    /\ files r = [("data.yaml", document)]
    /\ Yaml.load document = Ok (PyDict loaded)
    /\ dict_get "names" loaded
       = Some (PyList
                 (map PyStr
                    (Roboflow.downloaded_classes ex (version (project rf))))).

(** The four calls as the specification words them: the calls of a run
    into the libraries are download, train, validate and export, and no
    others. *)
Definition four_library_calls (t : list event) : Prop :=
  library_calls t ≡ₚ ["download"; "train"; "val"; "export"].

(** The configuration record with its items in ascending order of the
    keys, and the document that holds it. *)
Definition sorted_config (labels : list string) (nc : Z) : dict :=
  [("names", PyList (map PyStr labels));
   ("nc", PyInt nc);
   ("path", PyStr ".");
   ("test", PyStr "test");
   ("train", PyStr "train");
   ("val", PyStr "valid")].

Definition sorted_document (labels : list string) (nc : Z) : Yaml.node :=
  Yaml.MappingNode Yaml.tag_map
    [(Yaml.ScalarNode Yaml.tag_str "names",
      Yaml.SequenceNode Yaml.tag_seq (map (Yaml.ScalarNode Yaml.tag_str) labels));
     (Yaml.ScalarNode Yaml.tag_str "nc", Yaml.ScalarNode Yaml.tag_int (str_int nc));
     (Yaml.ScalarNode Yaml.tag_str "path", Yaml.ScalarNode Yaml.tag_str ".");
     (Yaml.ScalarNode Yaml.tag_str "test", Yaml.ScalarNode Yaml.tag_str "test");
     (Yaml.ScalarNode Yaml.tag_str "train", Yaml.ScalarNode Yaml.tag_str "train");
     (Yaml.ScalarNode Yaml.tag_str "val", Yaml.ScalarNode Yaml.tag_str "valid")].

(** The split keys of the configuration record. *)
Definition split_keys : list string := ["train"; "val"; "test"].

End Spec.

(** ** Notions for any record and any document *)

Module Record.
Import Py Yaml.

(** A value that holds no instance of another class, at any depth. *)
Fixpoint representable (o : pyobj) : bool :=
  match o with
  | PyObject _ => false
  | PyList items => forallb representable items
  | PyDict items => forallb (fun kv => representable (snd kv)) items
  | PyNone | PyBool _ | PyInt _ | PyFloat _ | PyStr _ => true
  end.

(** The loop of [construct_mapping] in [construct_object], on its own: the
    dict built so far is [mapping]. *)
Fixpoint construct_mapping (value : list (node * node)) (mapping : dict)
  : result dict :=
  match value with
  | [] => Ok mapping
  | (key_node, value_node) :: value' =>
      let* key := construct_object key_node in
      match key with
      | PyStr k =>
          let* v := construct_object value_node in
          construct_mapping value' (dict_set k v mapping)
      | PyList _ | PyDict _ => Raise ConstructorError
      | _ => Raise NotModelled
      end
  end.

(** The [str] keys of the items of a mapping node, in their order. *)
Definition mapping_keys (value : list (node * node)) : list string :=
  omap (fun kv => match fst kv with
                  | ScalarNode tag_str k => Some k
                  | _ => None
                  end) value.

(** The interpreter prints an int of at most this many digits. *)
Definition int_max_str_digits : nat := 4300.

Definition within_int_limit (z : Z) : bool :=
  (String.length (str_int (Z.abs z)) <=? int_max_str_digits)%nat.

(** Every int of the value, at any depth, can be printed. *)
Fixpoint ints_within_limit (o : pyobj) : bool :=
  match o with
  | PyInt z => within_int_limit z
  | PyList items => forallb ints_within_limit items
  | PyDict items => forallb (fun kv => ints_within_limit (snd kv)) items
  | PyNone | PyBool _ | PyFloat _ | PyStr _ | PyObject _ => true
  end.

(** How deep lists and dicts are nested in a value. *)
Fixpoint depth (o : pyobj) : nat :=
  match o with
  | PyList items => S (list_max (map depth items))
  | PyDict items => S (list_max (map (fun kv => depth (snd kv)) items))
  | PyNone | PyBool _ | PyInt _ | PyFloat _ | PyStr _ | PyObject _ => O
  end.

(** The representer calls itself once per level of nesting, a few frames
    each; this depth is well within the recursion limit of the
    interpreter (a thousand frames by default). *)
Definition max_depth : nat := 100.

(** Keys in ascending order, each at most the next. *)
Definition ascending (keys : list string) : Prop :=
  Sorted (fun a b => String.leb a b = true) keys.

End Record.

(** * Proofs *)

Import Py Yaml Notebook Spec.

(** Case analysis on which literal key a key [k] is. *)
Ltac case_key k :=
  repeat match goal with
         | |- context [String.eqb k ?s] =>
             destruct (String.eqb_spec k s) as [->|?]; cbn
         end.

(** ** The model on concrete values *)

Example str_int_examples :
  (str_int 0, str_int 1337, str_int (-7)) = ("0", "1337", "-7").
Proof. reflexivity. Qed.

Example construct_yaml_int_examples :
  (construct_yaml_int "1337", construct_yaml_int "-7", construct_yaml_int "1_000",
   construct_yaml_int "", construct_yaml_int "0x1F")
  = (Ok 1337, Ok (-7), Ok 1000, Raise IndexError, Raise NotModelled).
Proof. reflexivity. Qed.

Example represent_float_examples :
  (represent_float "0.0001", represent_float "1e-05", represent_float "inf")
  = ("0.0001", "1.0e-05", ".inf").
Proof. reflexivity. Qed.

Example sorted_is_by_code_point :
  dict_keys (sorted [("box", 1); ("Zebra", 2); ("123", 3); ("box2", 4)])
  = ["123"; "Zebra"; "box"; "box2"].
Proof. reflexivity. Qed.

Example dump_keeps_order_without_sort_keys :
  Yaml.dump (PyDict [("path", PyStr "."); ("nc", PyInt 2)]) false
  = Ok (MappingNode tag_map
          [(ScalarNode tag_str "path", ScalarNode tag_str ".");
           (ScalarNode tag_str "nc", ScalarNode tag_int "2")]).
Proof. reflexivity. Qed.

Example dump_sorts_by_default :
  Yaml.dump (PyDict [("path", PyStr "."); ("nc", PyInt 2)]) true
  = Ok (MappingNode tag_map
          [(ScalarNode tag_str "nc", ScalarNode tag_int "2");
           (ScalarNode tag_str "path", ScalarNode tag_str ".")]).
Proof. reflexivity. Qed.

Example load_reads_items_in_file_order :
  Yaml.load (MappingNode tag_map
               [(ScalarNode tag_str "nc", ScalarNode tag_int "2");
                (ScalarNode tag_str "names",
                 SequenceNode tag_seq [ScalarNode tag_str "box"; ScalarNode tag_str "7"])])
  = Ok (PyDict [("nc", PyInt 2); ("names", PyList [PyStr "box"; PyStr "7"])]).
Proof. reflexivity. Qed.

Example weights_and_export_paths :
  (Ultralytics.best_weights hyperparameters "2",
   Ultralytics.cli_arg "format" export_argv,
   Ultralytics.first_component "object-detector/test-run-3/weights/best.pt")
  = (Some "object-detection/training-12/weights/best.pt", Some "tflite",
     "object-detector").
Proof. reflexivity. Qed.

(** ** Decimal text of an int *)

(** The decimal digits of a number contain no underscore and no colon. *)
Lemma string_of_uint_plain (d : Decimal.uint) :
  remove "_" (NilEmpty.string_of_uint d) = NilEmpty.string_of_uint d
  /\ contains ":" (NilEmpty.string_of_uint d) = false.
Proof.
  induction d as [|d [IH1 IH2]|d [IH1 IH2]|d [IH1 IH2]|d [IH1 IH2]|d [IH1 IH2]
                  |d [IH1 IH2]|d [IH1 IH2]|d [IH1 IH2]|d [IH1 IH2]|d [IH1 IH2]];
    cbn; rewrite ?IH1, ?IH2; split; reflexivity.
Qed.

(** The decimal digits of a positive number do not start with a zero. *)
Lemma to_uint_no_leading_zero (p : positive) (d : Decimal.uint) :
  Pos.to_uint p <> Decimal.D0 d.
Proof.
  intros E.
  assert (N : Decimal.unorm (Pos.to_uint p) = Pos.to_uint p).
  { rewrite <- (DecimalPos.Unsigned.to_of (Pos.to_uint p)).
    now rewrite DecimalPos.Unsigned.of_to. }
  pose proof (DecimalPos.Unsigned.to_uint_nonzero p) as NZ.
  unfold Decimal.unorm in N.
  destruct (Decimal.nzhead (Pos.to_uint p)) eqn:H; try congruence.
  - rewrite <- N in E. rewrite E in H. now apply DecimalFacts.nzhead_nonzero in H.
Qed.

(** Reading digits without a leading zero, with or without a minus sign. *)
Lemma construct_yaml_int_digits (sign : bool) (d : Decimal.uint) :
  d <> Decimal.Nil -> (forall d', d <> Decimal.D0 d') ->
  construct_yaml_int
    (if sign then String "-" (NilEmpty.string_of_uint d)
     else NilEmpty.string_of_uint d)
  = Ok ((if sign then -1 else 1) * Z.of_uint d).
Proof.
  intros Hnil Hzero.
  pose proof (NilEmpty.usu d) as Husu.
  unfold construct_yaml_int.
  destruct d as [|d|d|d|d|d|d|d|d|d|d];
    try congruence; try (exfalso; eapply Hzero; reflexivity);
    destruct (string_of_uint_plain d) as [Hrm Hcolon];
    destruct sign;
    cbn -[NilEmpty.uint_of_string Z.mul Z.of_uint] in Husu |- *;
    rewrite Hrm, Hcolon, Husu; reflexivity.
Qed.

(** The two printers agree away from the empty digit sequence. *)
Lemma string_of_to_uint (p : positive) :
  NilZero.string_of_uint (Pos.to_uint p) = NilEmpty.string_of_uint (Pos.to_uint p).
Proof.
  pose proof (DecimalPos.Unsigned.to_uint_nonnil p) as Hnil.
  unfold NilZero.string_of_uint. now destruct (Pos.to_uint p).
Qed.

(** The loader reads back the int that [str] printed. *)
Lemma construct_yaml_int_str_int (z : Z) :
  construct_yaml_int (str_int z) = Ok z.
Proof.
  unfold str_int.
  destruct z as [|p|p]; [reflexivity| |];
    cbn [Z.to_int NilZero.string_of_int]; rewrite string_of_to_uint.
  - rewrite (construct_yaml_int_digits false (Pos.to_uint p)
               (DecimalPos.Unsigned.to_uint_nonnil p)
               (to_uint_no_leading_zero p)).
    unfold Z.of_uint. now rewrite DecimalPos.Unsigned.of_to.
  - rewrite (construct_yaml_int_digits true (Pos.to_uint p)
               (DecimalPos.Unsigned.to_uint_nonnil p)
               (to_uint_no_leading_zero p)).
    unfold Z.of_uint. now rewrite DecimalPos.Unsigned.of_to.
Qed.

(** ** The configuration record through the dumper and the loader *)

(** A list of strings is represented item by item and never raises. *)
Lemma represent_strs (sort_keys : bool) (labels : list string) :
  sequence (map (represent_data sort_keys) (map PyStr labels))
  = Ok (map (ScalarNode tag_str) labels).
Proof.
  induction labels as [|l labels IH]; [reflexivity|].
  cbn [map sequence represent_data bind]. now rewrite IH.
Qed.

(** A sequence of [str] scalars is constructed item by item. *)
Lemma construct_strs (labels : list string) :
  sequence (map construct_object (map (ScalarNode tag_str) labels))
  = Ok (map PyStr labels).
Proof.
  induction labels as [|l labels IH]; [reflexivity|].
  cbn [map sequence construct_object bind]. now rewrite IH.
Qed.

(** The document written for the configuration record. *)
Lemma dump_data_yaml (labels : list string) (n : Z) :
  Yaml.dump (PyDict (data_yaml labels n)) true = Ok (sorted_document labels n).
Proof.
  unfold Yaml.dump, data_yaml.
  cbn [represent_data map fst snd].
  rewrite represent_strs. reflexivity.
Qed.

(** The value read back from that document. *)
Lemma load_sorted_document (labels : list string) (n : Z) :
  Yaml.load (sorted_document labels n) = Ok (PyDict (sorted_config labels n)).
Proof.
  unfold Yaml.load, sorted_document.
  cbn [construct_object bind].
  rewrite construct_strs, construct_yaml_int_str_int. reflexivity.
Qed.

(** Sorting rearranges the items and drops or adds none. *)
Lemma sorted_insert_perm {A : Type} (x : string * A) (l : list (string * A)) :
  sorted_insert x l ≡ₚ x :: l.
Proof.
  induction l as [|y l IH]; [reflexivity|].
  cbn [sorted_insert]. destruct (String.leb (fst x) (fst y)); [reflexivity|].
  rewrite IH. apply Permutation_swap.
Qed.

Lemma sorted_perm {A : Type} (l : list (string * A)) : sorted l ≡ₚ l.
Proof.
  induction l as [|x l IH]; [reflexivity|].
  unfold sorted in *. cbn [foldr]. rewrite sorted_insert_perm. now rewrite IH.
Qed.

(** Lookup in the finite map of a dict is [dict_get]. *)
Lemma dict_map_lookup (d : dict) (k : string) : dict_map d !! k = dict_get k d.
Proof.
  unfold dict_map. induction d as [|[k' v] d IH]; [reflexivity|].
  cbn [list_to_map foldr dict_get]. rewrite lookup_insert.
  destruct (String.eqb_spec k k') as [->|Hne].
  - now rewrite decide_True.
  - rewrite decide_False by (intros E; apply Hne; symmetry; exact E). exact IH.
Qed.

(** A list of class names holds strings only. *)
Lemma plain_strs (labels : list string) :
  forallb (fun i => match i with PyStr _ => true | _ => false end)
          (map PyStr labels) = true.
Proof. induction labels as [|l labels IH]; [reflexivity|exact IH]. Qed.

(** A run of all cells never raises; its trace and its file. *)
Lemma notebook_run (rf : Roboflow.service) (h : dict) :
  run_cells rf h
  = Ok {| trace :=
            cell_install ++ cell_download
            ++ [Call pyyaml "dump"
                  [PyDict (data_yaml (labels (project rf))
                                     (nc (labels (project rf))));
                   PyObject "TextIOWrapper"; PyObject "SafeDumper"] []]
            ++ cell_model ++ cell_train h ++ cell_val ++ cell_export;
          files :=
            [("data.yaml",
              sorted_document (labels (project rf))
                              (nc (labels (project rf))))] |}.
Proof.
  unfold run_cells, cell_dump. rewrite dump_data_yaml. reflexivity.
Qed.

(** ** The claims *)

(** C1. The class count of the configuration record is the length of its
    class name list, for every list of class names; and in the file that
    a run writes, the integer under [nc] is the number of items of the
    sequence under [names]. *)
Theorem nc_equals_len_names (names : list string) (rf : Roboflow.service) :
  (dict_get "names" (data_yaml names (nc names)) = Some (PyList (map PyStr names))
   /\ dict_get "nc" (data_yaml names (nc names))
      = Some (PyInt (len (map PyStr names))))
  /\ exists r value items text,
       notebook rf = Ok r
       /\ files r = [("data.yaml", MappingNode tag_map value)]
       /\ mapping_get "names" value = Some (SequenceNode tag_seq items)
       /\ mapping_get "nc" value = Some (ScalarNode tag_int text)
       /\ construct_yaml_int text = Ok (len items).
Proof.
  split.
  - split; [reflexivity|]. cbn. unfold nc, len. now rewrite length_map.
  - unfold notebook. rewrite notebook_run. eexists _, _, _, _.
    split; [reflexivity|]. split; [reflexivity|].
    split; [reflexivity|]. split; [reflexivity|].
    rewrite construct_yaml_int_str_int. unfold nc, len. now rewrite length_map.
Qed.

(** C2, as stated, fails: for the class list [box] the mapping read back
    from the file does not have its keys in the order of the record. *)
Lemma roundtrip_loses_key_order :
  ~ roundtrip_keeps_order (data_yaml ["box"] (nc ["box"])).
Proof.
  intros (document & loaded & Hdump & Hload & Hkeys & _).
  rewrite dump_data_yaml in Hdump. injection Hdump as <-.
  rewrite load_sorted_document in Hload. injection Hload as <-.
  discriminate Hkeys.
Qed.

(** C2, amended. Dumping the configuration record and loading the file
    gives a mapping with the same keys and, under each key, the same
    value (so a value of the same type); the keys come back in ascending
    order, names, nc, path, test, train, val, not in the order of the
    record. *)
Theorem roundtrip_sorts_keys (names : list string) :
  exists document loaded,
    Yaml.dump (PyDict (data_yaml names (nc names))) true = Ok document
    /\ Yaml.load document = Ok (PyDict loaded)
    /\ loaded = sorted (data_yaml names (nc names))
    /\ dict_keys loaded = ["names"; "nc"; "path"; "test"; "train"; "val"]
    /\ loaded ≡ₚ data_yaml names (nc names)
    /\ forall k, dict_get k loaded = dict_get k (data_yaml names (nc names)).
Proof.
  exists (sorted_document names (nc names)), (sorted_config names (nc names)).
  split; [apply dump_data_yaml|]. split; [apply load_sorted_document|].
  assert (E : sorted_config names (nc names) = sorted (data_yaml names (nc names)))
    by reflexivity.
  split; [exact E|]. split; [reflexivity|]. split.
  - rewrite E. apply sorted_perm.
  - intros k. unfold sorted_config, data_yaml. cbn [dict_get].
    case_key k; congruence.
Qed.

(** C3. The weights file that the export line names is not the one that
    training writes: training with project [object-detection] and name
    [training-1] leaves [object-detection/training-1/weights/best.pt],
    also when the library appends a number to the run name, and the
    export line reads [object-detector/test-run-3/weights/best.pt]. *)
Theorem export_reads_other_weights :
  Ultralytics.cli_arg "model" export_argv
  = Some "object-detector/test-run-3/weights/best.pt"
  /\ Ultralytics.best_weights hyperparameters ""
     = Some "object-detection/training-1/weights/best.pt"
  /\ forall increment,
       Ultralytics.best_weights hyperparameters increment
       <> Ultralytics.cli_arg "model" export_argv.
Proof.
  split; [reflexivity|]. split; [reflexivity|].
  intros increment H. vm_compute in H. discriminate H.
Qed.

(** C4, as stated, fails: the calls of a run into the libraries are not
    the four named ones, and export is not among them. *)
Lemma export_is_not_a_library_call :
  exists r,
    notebook (fun _ _ => []) = Ok r
    /\ ~ four_library_calls (trace r)
    /\ ~ In "export" (library_calls (trace r)).
Proof.
  eexists. split; [reflexivity|]. split.
  - intros H. apply Permutation_length in H. discriminate H.
  - cbn. intros H. repeat (destruct H as [H|H]; [discriminate H|]). exact H.
Qed.

(** C4, amended. Download, train and validate are library calls, made
    once each; export is not a library call but a shell line, [yolo
    export], one of the two shell lines of the notebook; the other
    library calls build the client, project, version and model objects
    and dump the configuration. *)
Theorem export_is_a_shell_line (rf : Roboflow.service) :
  exists r,
    notebook rf = Ok r
    /\ length (calls_of "download" (trace r)) = 1%nat
    /\ length (calls_of "train" (trace r)) = 1%nat
    /\ length (calls_of "val" (trace r)) = 1%nat
    /\ calls_of "export" (trace r) = []
    /\ yolo_lines "export" (trace r) = [export_argv]
    /\ length (shell_lines (trace r)) = 2%nat
    /\ library_calls (trace r)
       = ["Roboflow"; "workspace"; "project"; "version"; "download"; "dump";
          "YOLO"; "train"; "val"].
Proof.
  unfold notebook. rewrite notebook_run. eexists. split; [reflexivity|].
  repeat split; reflexivity.
Qed.

(** C5. The configuration record has exactly the six keys path, train,
    val, test, nc and names, with four strings, an integer and a list
    under them, whatever the class names; the mapping in the file of a
    run has exactly these six keys. *)
Theorem config_has_six_fixed_keys (names : list string) (n : Z)
  (rf : Roboflow.service) :
  (dict_keys (data_yaml names n)
   = ["path"; "train"; "val"; "test"; "nc"; "names"]
   /\ map type_of (dict_values (data_yaml names n))
      = [str_t; str_t; str_t; str_t; int_t; list_t])
  /\ exists r value,
       notebook rf = Ok r
       /\ files r = [("data.yaml", MappingNode tag_map value)]
       /\ length value = 6%nat
       /\ map fst value
          ≡ₚ map (ScalarNode tag_str)
                 ["path"; "train"; "val"; "test"; "nc"; "names"].
Proof.
  split; [split; reflexivity|].
  unfold notebook. rewrite notebook_run. eexists _, _.
  split; [reflexivity|]. split; [reflexivity|]. split; [reflexivity|].
  change (map (ScalarNode tag_str) (dict_keys (sorted (data_yaml [] 0)))
          ≡ₚ map (ScalarNode tag_str) (dict_keys (data_yaml [] 0))).
  unfold dict_keys. apply Permutation_map, Permutation_map, sorted_perm.
Qed.

(** C6. Every value of the hyperparameter record is a scalar (an int, a
    float, a bool or a string); whatever the record holds, a run makes
    one training call and its keyword arguments are the record, as it
    is; the notebook is that run on its own record. *)
Theorem hyperparameters_flat_and_passed_as_is :
  forallb (fun kv => is_scalar (snd kv)) hyperparameters = true
  /\ (forall rf h, exists r,
        run_cells rf h = Ok r /\ calls_of "train" (trace r) = [([], h)])
  /\ forall rf, notebook rf = run_cells rf hyperparameters.
Proof.
  split; [reflexivity|]. split; [|reflexivity].
  intros rf h. rewrite notebook_run. eexists. split; reflexivity.
Qed.

(** C7, as stated, fails: when the class table of the project lists box
    and pallet and the files of the downloaded version list box only, the
    names in the file of the run are not those of the downloaded
    dataset. *)
Lemma names_differ_from_the_downloaded_dataset :
  ~ names_of_downloaded_dataset
      (fun _ _ => [("box", 10); ("pallet", 3)])
      (fun _ _ _ => ["box"]).
Proof.
  intros (r & document & loaded & Hrun & Hfiles & Hload & Hnames).
  unfold notebook in Hrun. rewrite notebook_run in Hrun.
  injection Hrun as <-. cbn [files] in Hfiles. injection Hfiles as <-.
  rewrite load_sorted_document in Hload. injection Hload as <-.
  discriminate Hnames.
Qed.

(** C7, amended. The class names in the file of a run are the keys of the
    class table that the service holds for the project logistics-sz9jr
    of the workspace large-benchmark-datasets, in the order of the table;
    the run downloads version 2 of that project, and the class list of
    the downloaded files is the one the service holds for that version,
    whatever the class table is. *)
Theorem names_are_the_project_class_table
        (rf : Roboflow.service) (ex : Roboflow.exports) :
  exists r document loaded,
    notebook rf = Ok r
    /\ In (Call roboflow "download" [PyStr "yolov8"]
             [("location", PyStr "datasets")]) (trace r)
    /\ files r = [("data.yaml", document)]
    /\ Yaml.load document = Ok (PyDict loaded)
    /\ dict_get "names" loaded
       = Some (PyList
                 (map PyStr
                    (dict_keys (rf "large-benchmark-datasets" "logistics-sz9jr"))))
    /\ Roboflow.downloaded_classes ex (version (project rf))
       = ex "large-benchmark-datasets" "logistics-sz9jr" 2.
Proof.
  unfold notebook. rewrite notebook_run. eexists _, _, _.
  split; [reflexivity|]. split; [cbn; tauto|]. split; [reflexivity|].
  split; [apply load_sorted_document|]. split; reflexivity.
Qed.

(** C8. The root path of the configuration record is the current
    directory, the download goes to [datasets], the two differ, and the
    root path joined with each split folder name is not a path under the
    download location. *)
Theorem root_path_is_not_the_download_location
  (names : list string) (n : Z) (v : Roboflow.Version) :
  dict_get "path" (data_yaml names n) = Some (PyStr ".")
  /\ Roboflow.location (dataset v) = "datasets"
  /\ "." <> Roboflow.location (dataset v)
  /\ Forall (fun k => exists s,
               dict_get k (data_yaml names n) = Some (PyStr s)
               /\ String.prefix
                    (Ultralytics.join (Roboflow.location (dataset v)) "")
                    (Ultralytics.join "." s) = false)
            split_keys.
Proof.
  split; [reflexivity|]. split; [reflexivity|]. split; [discriminate|].
  repeat constructor; eexists; split; reflexivity.
Qed.

(** C9. The keys of the simple hyperparameter mapping are device, data,
    epochs, batch and seed; each of them is a key of the full mapping
    with the same value; as finite maps, the simple mapping is included
    in the full one. *)
Theorem simple_is_a_sub_mapping :
  dict_keys simple_hyperparameters = ["device"; "data"; "epochs"; "batch"; "seed"]
  /\ Forall (fun k => exists v,
               dict_get k simple_hyperparameters = Some v
               /\ dict_get k hyperparameters = Some v)
            (dict_keys simple_hyperparameters)
  /\ dict_map simple_hyperparameters ⊆ dict_map hyperparameters.
Proof.
  split; [reflexivity|]. split.
  - repeat constructor; eexists; split; reflexivity.
  - apply map_subseteq_spec. intros k v. rewrite !dict_map_lookup.
    unfold simple_hyperparameters, hyperparameters.
    cbn [dict_get]. case_key k; congruence.
Qed.

(** C10. Every value of the configuration record is a string, an
    integer or a list of strings, and dumping the record returns a
    document and does not raise the representer's error, for every list
    of class names; a run of the notebook does not raise. *)
Theorem dump_never_raises (names : list string) (n : Z) (rf : Roboflow.service) :
  forallb plain_value (dict_values (data_yaml names n)) = true
  /\ is_ok (Yaml.dump (PyDict (data_yaml names n)) true) = true
  /\ Yaml.dump (PyDict (data_yaml names n)) true <> Raise RepresenterError
  /\ is_ok (notebook rf) = true.
Proof.
  split.
  - cbn. now rewrite plain_strs.
  - rewrite dump_data_yaml. split; [reflexivity|]. split; [discriminate|].
    unfold notebook. now rewrite notebook_run.
Qed.

(** The error branch is there: a record that holds a model object raises. *)
Example dump_raises_on_other_objects :
  Yaml.dump (PyDict [("path", PyStr "."); ("model", PyObject "YOLO")]) true
  = Raise RepresenterError.
Proof. reflexivity. Qed.

(** ** Further properties of the cells *)

(** X1. In every run the dump cell writes its file before the training
    call is made, and the [data] option of the training call, in the
    full and in the simple hyperparameters alike, is the name of that
    file. *)
Theorem training_reads_the_written_file (rf : Roboflow.service) :
  exists r name document before between after args,
    notebook rf = Ok r
    /\ files r = [(name, document)]
    /\ trace r
       = (before ++ Call pyyaml "dump" args [] :: between
            ++ Call ultralytics "train" [] hyperparameters :: after)%list
    /\ ~ In "train" (library_calls before)
    /\ dict_get "data" hyperparameters = Some (PyStr name)
    /\ dict_get "data" simple_hyperparameters = Some (PyStr name).
Proof.
  unfold notebook. rewrite notebook_run.
  eexists _, _, _, (cell_install ++ cell_download)%list, cell_model, _, _.
  split; [reflexivity|]. split; [reflexivity|]. split; [reflexivity|].
  split; [|split; reflexivity].
  cbn. intros H. repeat (destruct H as [H|H]; [discriminate H|]). exact H.
Qed.

(** X2. A project without classes is not refused: the run writes a file
    whose class count is zero and whose class name list is empty, and
    still makes the training call. *)
Theorem empty_project_still_trains (rf : Roboflow.service) :
  rf "large-benchmark-datasets" "logistics-sz9jr" = [] ->
  exists r document loaded,
    notebook rf = Ok r
    /\ files r = [("data.yaml", document)]
    /\ Yaml.load document = Ok (PyDict loaded)
    /\ dict_get "nc" loaded = Some (PyInt 0)
    /\ dict_get "names" loaded = Some (PyList [])
    /\ calls_of "train" (trace r) = [([], hyperparameters)].
Proof.
  intros Hempty. unfold notebook. rewrite notebook_run.
  unfold labels, project, Roboflow.get_project. cbn [Roboflow.classes].
  rewrite Hempty. eexists _, _, _.
  split; [reflexivity|]. split; [reflexivity|].
  split; [apply load_sorted_document|]. repeat split; reflexivity.
Qed.

Lemma empty_project_still_trains_witness :
  (fun _ _ : string => @nil (string * Z))
    "large-benchmark-datasets" "logistics-sz9jr" = []
  /\ exists r document loaded,
       notebook (fun _ _ => []) = Ok r
       /\ files r = [("data.yaml", document)]
       /\ Yaml.load document = Ok (PyDict loaded)
       /\ dict_get "nc" loaded = Some (PyInt 0)
       /\ dict_get "names" loaded = Some (PyList [])
       /\ calls_of "train" (trace r) = [([], hyperparameters)].
Proof.
  split; [reflexivity|].
  apply (empty_project_still_trains (fun _ _ => [])). reflexivity.
Defined.

Import Record.

Lemma construct_object_mapping (value : list (node * node)) :
  construct_object (MappingNode tag_map value)
  = let* mapping := construct_mapping value [] in Ok (PyDict mapping).
Proof. reflexivity. Qed.

Lemma pyobj_nested_ind (P : pyobj -> Prop) :
  P PyNone -> (forall b, P (PyBool b)) -> (forall z, P (PyInt z)) ->
  (forall r, P (PyFloat r)) -> (forall s, P (PyStr s)) ->
  (forall items, Forall P items -> P (PyList items)) ->
  (forall items, Forall (fun kv => P (snd kv)) items -> P (PyDict items)) ->
  (forall cls, P (PyObject cls)) ->
  forall o, P o.
Proof.
  intros HN HB HI HF HS HL HD HO.
  fix IH 1.
  intros [| b | z | r | s | items | items | cls];
    [exact HN | apply HB | apply HI | apply HF | apply HS | | | apply HO].
  - apply HL. induction items as [|i items IHitems]; constructor;
      [apply IH | exact IHitems].
  - apply HD. induction items as [|[k v] items IHitems]; constructor;
      [apply IH | exact IHitems].
Qed.

(** ** Any value through the representer *)

Lemma is_ok_sequence {A : Type} (l : list (result A)) :
  is_ok (sequence l) = forallb is_ok l.
Proof.
  induction l as [|[a|e] l IH]; [reflexivity| |reflexivity].
  cbn [sequence bind forallb is_ok andb]. rewrite <- IH.
  now destruct (sequence l).
Qed.

Lemma sequence_raise {A : Type} (l : list (result A)) (e : error) :
  sequence l = Raise e -> In (Raise e) l.
Proof.
  induction l as [|[a|e'] l IH]; [discriminate| |].
  - cbn [sequence bind]. destruct (sequence l) as [rest|e'']; [discriminate|].
    intros [= ->]. right. now apply IH.
  - cbn [sequence bind]. intros [= ->]. now left.
Qed.

Lemma forallb_perm {A : Type} (p : A -> bool) (l l' : list A) :
  l ≡ₚ l' -> forallb p l = forallb p l'.
Proof.
  induction 1 as [|x l l' _ IH|x y l|l l' l'' _ IH1 _ IH2]; cbn [forallb].
  - reflexivity.
  - now rewrite IH.
  - now rewrite !andb_assoc, (andb_comm (p y)).
  - now rewrite IH1.
Qed.

Lemma forallb_map_fun {A B : Type} (p : B -> bool) (f : A -> B) (l : list A) :
  forallb p (map f l) = forallb (fun x => p (f x)) l.
Proof. induction l as [|x l IH]; [reflexivity|]. cbn. now rewrite IH. Qed.

Lemma forallb_ext_Forall {A : Type} (p q : A -> bool) (l : list A) :
  Forall (fun x => p x = q x) l -> forallb p l = forallb q l.
Proof. induction 1 as [|x l Hx _ IH]; [reflexivity|]. cbn. now rewrite Hx, IH. Qed.

(** The representer returns a node exactly for the representable values. *)
Lemma is_ok_represent_data (sort_keys : bool) (o : pyobj) :
  is_ok (represent_data sort_keys o) = representable o.
Proof.
  induction o as [| b | z | r | s | items IH | items IH | cls]
    using pyobj_nested_ind; try reflexivity.
  - cbn [represent_data representable].
    transitivity (is_ok (sequence (map (represent_data sort_keys) items))).
    { now destruct (sequence (map (represent_data sort_keys) items)). }
    rewrite is_ok_sequence, forallb_map_fun. now apply forallb_ext_Forall.
  - cbn [represent_data representable].
    set (represented :=
           map (fun kv => (fst kv, represent_data sort_keys (snd kv))) items).
    set (mapping := if sort_keys then sorted represented else represented).
    set (g := fun kr : string * result node =>
                let* v := snd kr in Ok (ScalarNode tag_str (fst kr), v)).
    transitivity (is_ok (sequence (map g mapping))).
    { now destruct (sequence (map g mapping)). }
    rewrite is_ok_sequence, forallb_map_fun.
    transitivity (forallb (fun kr => is_ok (snd kr)) mapping).
    { apply forallb_ext_Forall, Forall_forall. intros [k [n|e]] _; reflexivity. }
    transitivity (forallb (fun kr : string * result node => is_ok (snd kr)) represented).
    { subst mapping. destruct sort_keys; [|reflexivity].
      apply forallb_perm, sorted_perm. }
    subst represented. rewrite forallb_map_fun. now apply forallb_ext_Forall.
Qed.

(** The only error of the representer is its own. *)
Lemma represent_data_raises (sort_keys : bool) (o : pyobj) (e : error) :
  represent_data sort_keys o = Raise e -> e = RepresenterError.
Proof.
  revert e.
  induction o as [| b | z | r | s | items IH | items IH | cls]
    using pyobj_nested_ind; intros e; try discriminate.
  - cbn [represent_data].
    destruct (sequence (map (represent_data sort_keys) items)) as [v|e'] eqn:E;
      [discriminate|].
    intros [= ->]. apply sequence_raise in E.
    apply in_map_iff in E as (i & Hi & Hin).
    rewrite Forall_forall in IH. apply (IH i); [|exact Hi].
    now apply list_elem_of_In.
  - cbn [represent_data].
    set (represented :=
           map (fun kv => (fst kv, represent_data sort_keys (snd kv))) items).
    set (mapping := if sort_keys then sorted represented else represented).
    match goal with
    | |- context [sequence ?l] => destruct (sequence l) as [v|e'] eqn:E
    end; [discriminate|].
    intros [= ->]. apply sequence_raise in E.
    apply in_map_iff in E as ([k r] & Hr & Hin).
    assert (Hin' : In (k, r) represented).
    { subst mapping. destruct sort_keys; [|exact Hin].
      apply list_elem_of_In. rewrite <- (sorted_perm represented).
      now apply list_elem_of_In. }
    subst represented. apply in_map_iff in Hin' as ([k' v] & [= <- <-] & Hkv).
    cbn [fst snd] in Hr. destruct (represent_data sort_keys v) as [n|e'] eqn:Ev;
      [discriminate|].
    cbn in Hr. injection Hr as ->.
    rewrite Forall_forall in IH. apply (IH (k', v)); [|exact Ev].
    now apply list_elem_of_In.
  - now intros [= <-].
Qed.

(** X3. For a value built from None, bools, ints, floats, strings,
    lists, dicts with string keys and instances of classes that the safe
    dumper has no representer for, whose ints can be printed and whose
    nesting is not deeper than [max_depth]: dumping it returns a document
    exactly when it holds no such instance at any depth, with or without
    sorting of the keys, and when it raises, the error is the
    representer's. *)
Theorem dump_raises_exactly_on_other_objects (o : pyobj) (sort_keys : bool) :
  ints_within_limit o = true ->
  (depth o <= max_depth)%nat ->
  match Yaml.dump o sort_keys with
  | Ok _ => representable o = true
  | Raise e => e = RepresenterError /\ representable o = false
  end.
Proof.
  intros _ _. unfold Yaml.dump.
  pose proof (is_ok_represent_data sort_keys o) as Hok.
  destruct (represent_data sort_keys o) as [n|e] eqn:E.
  - now rewrite <- Hok.
  - split; [now apply (represent_data_raises sort_keys o)|now rewrite <- Hok].
Qed.

Lemma dump_raises_exactly_on_other_objects_witness :
  ints_within_limit
    (PyDict [("nc", PyInt 2);
             ("names", PyList [PyStr "box"; PyObject "YOLO"])]) = true
  /\ (depth (PyDict [("nc", PyInt 2);
                     ("names", PyList [PyStr "box"; PyObject "YOLO"])])
      <= max_depth)%nat
  /\ match Yaml.dump
             (PyDict [("nc", PyInt 2);
                      ("names", PyList [PyStr "box"; PyObject "YOLO"])]) true
     with
     | Ok _ =>
         representable
           (PyDict [("nc", PyInt 2);
                    ("names", PyList [PyStr "box"; PyObject "YOLO"])]) = true
     | Raise e =>
         e = RepresenterError
         /\ representable
              (PyDict [("nc", PyInt 2);
                       ("names", PyList [PyStr "box"; PyObject "YOLO"])])
            = false
     end.
Proof.
  assert (Hints : ints_within_limit
                    (PyDict [("nc", PyInt 2);
                             ("names", PyList [PyStr "box"; PyObject "YOLO"])])
                  = true) by (vm_compute; reflexivity).
  assert (Hdepth : (depth (PyDict [("nc", PyInt 2);
                                   ("names", PyList [PyStr "box"; PyObject "YOLO"])])
                    <= max_depth)%nat) by (vm_compute; lia).
  split; [exact Hints|]. split; [exact Hdepth|].
  exact (dump_raises_exactly_on_other_objects _ true Hints Hdepth).
Defined.

Lemma sorted_insert_map {A B : Type} (f : A -> B) (x : string * A)
      (l : list (string * A)) :
  sorted_insert (fst x, f (snd x)) (map (fun kv => (fst kv, f (snd kv))) l)
  = map (fun kv => (fst kv, f (snd kv))) (sorted_insert x l).
Proof.
  induction l as [|y l IH]; [reflexivity|].
  cbn [map sorted_insert fst]. destruct (String.leb (fst x) (fst y)).
  - reflexivity.
  - cbn [map]. now rewrite IH.
Qed.

(** Sorting looks at the keys only. *)
Lemma sorted_map {A B : Type} (f : A -> B) (l : list (string * A)) :
  sorted (map (fun kv => (fst kv, f (snd kv))) l)
  = map (fun kv => (fst kv, f (snd kv))) (sorted l).
Proof.
  unfold sorted. induction l as [|x l IH]; [reflexivity|].
  cbn [map foldr]. rewrite IH. apply sorted_insert_map.
Qed.

Lemma sorted_insert_ascending {A : Type} (x : string * A) (l : list (string * A)) :
  ascending (dict_keys l) -> ascending (dict_keys (sorted_insert x l)).
Proof.
  unfold ascending, dict_keys.
  induction l as [|y l IH]; intros Hs.
  - repeat constructor.
  - cbn [sorted_insert]. destruct (String.leb (fst x) (fst y)) eqn:Hxy.
    + cbn [map]. constructor; [exact Hs|]. now constructor.
    + cbn [map] in Hs |- *. apply Sorted_inv in Hs as [Hs Hhd].
      constructor; [now apply IH|].
      destruct l as [|z l]; cbn [sorted_insert map].
      * constructor. destruct (String.leb_total (fst x) (fst y)) as [H|H];
          [congruence|exact H].
      * destruct (String.leb (fst x) (fst z)); cbn [map]; constructor.
        -- destruct (String.leb_total (fst x) (fst y)) as [H|H];
             [congruence|exact H].
        -- now apply HdRel_inv in Hhd.
Qed.

(** The keys of a sorted dict are in ascending order. *)
Lemma sorted_ascending {A : Type} (l : list (string * A)) :
  ascending (dict_keys (sorted l)).
Proof.
  unfold sorted. induction l as [|x l IH]; [constructor|].
  cbn [foldr]. now apply sorted_insert_ascending.
Qed.

(** The items the representer returns for a mapping carry its keys, as
    [str] scalars, in the order of the mapping. *)
Lemma sequence_items_keys (m : list (string * result node))
      (value : list (node * node)) :
  sequence (map (fun kr => let* v := snd kr in
                           Ok (ScalarNode tag_str (fst kr), v)) m) = Ok value ->
  mapping_keys value = dict_keys m.
Proof.
  revert value. induction m as [|[k [n|e]] m IH]; intros value.
  - now intros [= <-].
  - cbn [map sequence bind fst snd].
    match goal with
    | |- context [sequence ?l] => destruct (sequence l) as [rest|e] eqn:E
    end; [|discriminate].
    intros [= <-]. unfold mapping_keys, dict_keys. cbn. f_equal.
    now apply IH.
  - discriminate.
Qed.

Lemma dump_dict_keys (d : dict) (document : node) :
  Yaml.dump (PyDict d) true = Ok document ->
  exists value,
    document = MappingNode tag_map value
    /\ mapping_keys value = dict_keys (sorted d).
Proof.
  unfold Yaml.dump. cbn [represent_data].
  match goal with
  | |- context [sequence ?l] => destruct (sequence l) as [value|e] eqn:E
  end; [|discriminate].
  intros [= <-]. exists value. split; [reflexivity|].
  apply sequence_items_keys in E. rewrite E, sorted_map.
  unfold dict_keys. rewrite map_map. reflexivity.
Qed.

(** X5. Whatever record the dump cell is given, when it returns, the file
    is [data.yaml] and holds a mapping whose keys are the keys of the
    record, none lost and none added, in ascending order. *)
Theorem written_keys_ascending (d : dict) (events : list event)
        (name : string) (document : node) :
  cell_dump d = Ok (events, (name, document)) ->
  name = "data.yaml"
  /\ exists value,
       document = MappingNode tag_map value
       /\ ascending (mapping_keys value)
       /\ mapping_keys value ≡ₚ dict_keys d.
Proof.
  unfold cell_dump.
  destruct (Yaml.dump (PyDict d) true) as [doc|e] eqn:E; [|discriminate].
  cbn [bind]. intros [= _ <- <-]. split; [reflexivity|].
  apply dump_dict_keys in E as (value & -> & Hkeys).
  exists value. split; [reflexivity|]. rewrite Hkeys. split.
  - apply sorted_ascending.
  - unfold dict_keys. apply Permutation_map, sorted_perm.
Qed.

Lemma written_keys_ascending_witness :
  cell_dump [("path", PyStr "."); ("nc", PyInt 2)]
  = Ok ([Call pyyaml "dump"
           [PyDict [("path", PyStr "."); ("nc", PyInt 2)];
            PyObject "TextIOWrapper"; PyObject "SafeDumper"] []],
        ("data.yaml",
         MappingNode tag_map
           [(ScalarNode tag_str "nc", ScalarNode tag_int "2");
            (ScalarNode tag_str "path", ScalarNode tag_str ".")]))
  /\ ("data.yaml" = "data.yaml"
      /\ exists value,
           MappingNode tag_map
             [(ScalarNode tag_str "nc", ScalarNode tag_int "2");
              (ScalarNode tag_str "path", ScalarNode tag_str ".")]
           = MappingNode tag_map value
           /\ ascending (mapping_keys value)
           /\ mapping_keys value
              ≡ₚ dict_keys [("path", PyStr "."); ("nc", PyInt 2)]).
Proof.
  split; [reflexivity|].
  apply (written_keys_ascending
           [("path", PyStr "."); ("nc", PyInt 2)]
           [Call pyyaml "dump"
              [PyDict [("path", PyStr "."); ("nc", PyInt 2)];
               PyObject "TextIOWrapper"; PyObject "SafeDumper"] []]).
  reflexivity.
Defined.

(** A list of strings, as values. *)
Lemma strs_are_map_PyStr (items : list pyobj) :
  forallb (fun i => match i with PyStr _ => true | _ => false end) items = true ->
  exists labels, items = map PyStr labels.
Proof.
  induction items as [|i items IH]; [now exists []|].
  cbn [forallb]. intros [Hi Hitems]%andb_prop.
  destruct (IH Hitems) as (labels & ->).
  destruct i; try discriminate. now exists (s :: labels).
Qed.

(** A plain value is represented by a node from which the loader builds
    the same value. *)
Lemma plain_value_round_trip (sort_keys : bool) (v : pyobj) :
  plain_value v = true ->
  exists n, represent_data sort_keys v = Ok n /\ construct_object n = Ok v.
Proof.
  destruct v as [| b | z | r | s | items | items | cls]; try discriminate.
  - intros _. eexists. split; [reflexivity|].
    cbn [construct_object]. now rewrite construct_yaml_int_str_int.
  - intros _. eexists. split; reflexivity.
  - cbn [plain_value]. intros (labels & ->)%strs_are_map_PyStr.
    eexists. split.
    + cbn [represent_data]. rewrite represent_strs. reflexivity.
    + cbn [construct_object]. now rewrite construct_strs.
Qed.

(** Assignment under a key the dict does not have appends the item. *)
Lemma dict_set_fresh {A : Type} (k : string) (v : A) (d : list (string * A)) :
  ~ In k (dict_keys d) -> dict_set k v d = (d ++ [(k, v)])%list.
Proof.
  induction d as [|[k' v'] d IH]; [reflexivity|].
  cbn [dict_keys map fst In dict_set app]. intros Hk.
  destruct (String.eqb_spec k k') as [->|_]; [tauto|].
  f_equal. apply IH. unfold dict_keys. tauto.
Qed.

(** The items written for a record of plain values with distinct keys,
    and the dict the loader builds from them on top of [mapping]. *)
Lemma plain_items_round_trip (sort_keys : bool) (l : dict) :
  forallb plain_value (dict_values l) = true ->
  NoDup (dict_keys l) ->
  exists value,
    sequence (map (fun kr => let* v := snd kr in
                             Ok (ScalarNode tag_str (fst kr), v))
                  (map (fun kv => (fst kv, represent_data sort_keys (snd kv))) l))
    = Ok value
    /\ forall mapping,
         (forall k, In k (dict_keys l) -> ~ In k (dict_keys mapping)) ->
         construct_mapping value mapping = Ok (mapping ++ l)%list.
Proof.
  induction l as [|[k v] l IH].
  - intros _ _. exists []. split; [reflexivity|].
    intros mapping _. cbn. now rewrite app_nil_r.
  - cbn [dict_values dict_keys map fst snd forallb].
    intros [Hv Hl]%andb_prop [Hk Hnd]%NoDup_cons.
    destruct (IH Hl Hnd) as (value & Hseq & Hload).
    destruct (plain_value_round_trip sort_keys v Hv) as (n & Hrep & Hcon).
    exists ((ScalarNode tag_str k, n) :: value). split.
    + cbn [sequence bind]. rewrite Hrep. cbn [bind]. rewrite Hseq. reflexivity.
    + intros mapping Hfresh.
      cbn [construct_mapping construct_object bind]. rewrite Hcon. cbn [bind].
      rewrite dict_set_fresh by (apply Hfresh; now left).
      rewrite Hload.
      * now rewrite <- app_assoc.
      * intros k' Hk' Hin. unfold dict_keys in Hin.
        rewrite map_app, in_app_iff in Hin. destruct Hin as [Hin|[<-|[]]].
        -- apply (Hfresh k'); [now right|exact Hin].
        -- apply Hk. now apply list_elem_of_In.
Qed.

Lemma dict_map_perm (l l' : dict) :
  NoDup (dict_keys l) -> l ≡ₚ l' -> dict_map l = dict_map l'.
Proof. intros Hnd Hp. now apply list_to_map_proper. Qed.

(** X4. For every record with distinct keys whose values are strings,
    integers that can be printed, or lists of strings, the dump returns a
    document, loading that document gives the record with its items
    sorted by key, and every key has the value it had in the record. *)
Theorem plain_record_round_trip (d : dict) :
  NoDup (dict_keys d) ->
  forallb plain_value (dict_values d) = true ->
  forallb ints_within_limit (dict_values d) = true ->
  exists document,
    Yaml.dump (PyDict d) true = Ok document
    /\ Yaml.load document = Ok (PyDict (sorted d))
    /\ forall k, dict_get k (sorted d) = dict_get k d.
Proof.
  intros Hnd Hplain _.
  assert (Hp : sorted d ≡ₚ d) by apply sorted_perm.
  assert (Hnd' : NoDup (dict_keys (sorted d))).
  { unfold dict_keys. now rewrite Hp. }
  assert (Hplain' : forallb plain_value (dict_values (sorted d)) = true).
  { unfold dict_values. rewrite forallb_map_fun.
    rewrite (forallb_perm _ _ _ Hp), <- forallb_map_fun. exact Hplain. }
  destruct (plain_items_round_trip true (sorted d) Hplain' Hnd')
    as (value & Hseq & Hload).
  exists (MappingNode tag_map value). split; [|split].
  - unfold Yaml.dump. cbn [represent_data]. rewrite sorted_map, Hseq. reflexivity.
  - unfold Yaml.load. rewrite construct_object_mapping.
    rewrite (Hload []) by (intros k _ []). reflexivity.
  - intros k. rewrite <- !dict_map_lookup.
    now rewrite (dict_map_perm (sorted d) d Hnd' Hp).
Qed.

Lemma plain_record_round_trip_witness :
  NoDup (dict_keys [("val", PyStr "test"); ("nc", PyInt 2);
                    ("names", PyList [PyStr "box"; PyStr "7"])])
  /\ forallb plain_value
       (dict_values [("val", PyStr "test"); ("nc", PyInt 2);
                     ("names", PyList [PyStr "box"; PyStr "7"])]) = true
  /\ forallb ints_within_limit
       (dict_values [("val", PyStr "test"); ("nc", PyInt 2);
                     ("names", PyList [PyStr "box"; PyStr "7"])]) = true
  /\ exists document,
       Yaml.dump (PyDict [("val", PyStr "test"); ("nc", PyInt 2);
                          ("names", PyList [PyStr "box"; PyStr "7"])]) true
       = Ok document
       /\ Yaml.load document
          = Ok (PyDict (sorted [("val", PyStr "test"); ("nc", PyInt 2);
                                ("names", PyList [PyStr "box"; PyStr "7"])]))
       /\ forall k,
            dict_get k (sorted [("val", PyStr "test"); ("nc", PyInt 2);
                                ("names", PyList [PyStr "box"; PyStr "7"])])
            = dict_get k [("val", PyStr "test"); ("nc", PyInt 2);
                          ("names", PyList [PyStr "box"; PyStr "7"])].
Proof.
  assert (Hnd : NoDup (dict_keys [("val", PyStr "test"); ("nc", PyInt 2);
                                  ("names", PyList [PyStr "box"; PyStr "7"])])).
  { apply (bool_decide_unpack _). vm_compute. reflexivity. }
  split; [exact Hnd|]. split; [reflexivity|]. split; [reflexivity|].
  apply (plain_record_round_trip _ Hnd); reflexivity.
Defined.
